(** * libarmcortex: the Conan recipe [conanfile.py]

    A shallow embedding of the recipe class [libarmcortex_conan] and of the
    part of the Conan runtime it talks to, followed by the properties of the
    recipe's five methods.

    The recipe is straight-line Python that (a) declares attributes,
    (b) calls external tools (CMake configure, CMake build, [ctest] through
    [self.run], the file copier through [self.copy]) and (c) records
    declarations on [self] ([self.info.header_only], [self.requires],
    [self.test_requires]).  Methods are embedded in a state-and-exception
    monad over a machine made of the recipe object and the host; every call
    of an external tool is appended to the host's log, and the host decides
    whether that call raises. *)

From Stdlib Require Import List String Ascii ZArith Bool Arith Lia.
From Stdlib Require Import Numbers.DecimalString Numbers.DecimalZ Numbers.DecimalPos.
Import ListNotations.

Local Open Scope string_scope.
Local Open Scope list_scope.

(** ** Python strings: [str(int)] and the [%] operator *)

Module Py.

(** [str(n)] for an [int]: decimal digits, a leading [-] when negative,
    ["0"] for zero. *)
Definition str (n : Z) : string := NilZero.string_of_int (Z.to_int n).

(** [int(s)] on the output of [str]; [None] stands for [ValueError]. *)
Definition int (s : string) : option Z :=
  option_map Z.of_int (NilZero.int_of_string s).

(** [fmt % arg] with a single, non-tuple argument that is already a
    string.  Only the conversions [%s] and [%%] are modelled; [None] stands
    for the [TypeError]/[ValueError] Python raises when the format does not
    consume exactly one argument or uses another conversion.  [used] tells
    whether the argument has been consumed. *)
Fixpoint percent_from (used : bool) (fmt arg : string) : option string :=
  match fmt with
  | EmptyString => if used then Some EmptyString else None
  | String "%" (String "s" rest) =>
      if used then None
      else option_map (append arg) (percent_from true rest arg)
  | String "%" (String "%" rest) =>
      option_map (String "%") (percent_from used rest arg)
  | String "%" _ => None
  | String c rest => option_map (String c) (percent_from used rest arg)
  end.

Definition percent (fmt arg : string) : option string :=
  percent_from false fmt arg.

(** Truthiness of a [bool] attribute in an [if]. *)
Definition truthy (b : bool) : bool := b.

End Py.

(** ** Shell word splitting, as done on the command handed to [self.run] *)

Module Shell.

Definition is_space (c : ascii) : bool := Ascii.eqb c " ".

(** [split_from cur s]: the words of [s], [cur] being the word read so far
    (in order).  Runs of blanks separate words and produce no empty word. *)
Fixpoint split_from (cur : string) (s : string) : list string :=
  match s with
  | EmptyString => match cur with EmptyString => [] | _ => [cur] end
  | String c rest =>
      if is_space c then
        match cur with
        | EmptyString => split_from EmptyString rest
        | _ => cur :: split_from EmptyString rest
        end
      else split_from (cur ++ String c EmptyString) rest
  end.

Definition words (s : string) : list string := split_from EmptyString s.

(** No blank in [s]. *)
Fixpoint blank_free (s : string) : bool :=
  match s with
  | EmptyString => true
  | String c rest => negb (is_space c) && blank_free rest
  end.

(** The value that follows the option [flag] on a command line. *)
Fixpoint option_value (flag : string) (argv : list string) : option string :=
  match argv with
  | [] => None
  | a :: rest =>
      if String.eqb a flag then
        match rest with v :: _ => Some v | [] => None end
      else option_value flag rest
  end.

Definition has_flag (flag : string) (argv : list string) : bool :=
  existsb (String.eqb flag) argv.

End Shell.

(** ** Glob matching, as done by the file copier on a pattern *)

Module Fnmatch.

(** [fnmatchcase name pat]: [*] matches any run of characters (path
    separators included), [?] any one character, any other character
    itself.  Bracket classes are not modelled: the recipe's only pattern
    has none. *)
Fixpoint glob (pat : string) : string -> bool :=
  match pat with
  | EmptyString => fun s => match s with EmptyString => true | _ => false end
  | String "*" pat' =>
      fix star (s : string) : bool :=
        glob pat' s ||
        match s with
        | EmptyString => false
        | String _ s' => star s'
        end
  | String "?" pat' =>
      fun s => match s with
               | EmptyString => false
               | String _ s' => glob pat' s'
               end
  | String c pat' =>
      fun s => match s with
               | EmptyString => false
               | String d s' => Ascii.eqb c d && glob pat' s'
               end
  end.

Definition fnmatchcase (name pat : string) : bool := glob pat name.

(** [str.lower] on ASCII. *)
Definition lower_char (c : ascii) : ascii :=
  let n := nat_of_ascii c in
  if (65 <=? n)%nat && (n <=? 90)%nat then ascii_of_nat (n + 32) else c.

Fixpoint lower (s : string) : string :=
  match s with
  | EmptyString => EmptyString
  | String c s' => String (lower_char c) (lower s')
  end.

(** The copier lower-cases both the names and the pattern when its
    [ignore_case] argument is set. *)
Definition normcase (ignore_case : bool) (s : string) : string :=
  if ignore_case then lower s else s.

Definition matches (ignore_case : bool) (pat name : string) : bool :=
  fnmatchcase (normcase ignore_case name) (normcase ignore_case pat).

(** [fnmatch.filter]. *)
Definition filter (ignore_case : bool) (names : list string) (pat : string)
  : list string :=
  List.filter (matches ignore_case pat) names.

End Fnmatch.

(** ** The Conan runtime seen from the recipe *)

Module Conans.

(** A call of an external tool. *)
Inductive Call : Type :=
| Configure                 (* cmake.configure() *)
| Build                     (* cmake.build() *)
| Run (command : string)    (* self.run(command) *)
| Copy (pattern : string).  (* self.copy(pattern) *)

Definition is_configure (c : Call) : bool :=
  match c with Configure => true | _ => false end.
Definition is_build (c : Call) : bool :=
  match c with Build => true | _ => false end.
Definition is_run (c : Call) : bool :=
  match c with Run _ => true | _ => false end.
Definition is_copy (c : Call) : bool :=
  match c with Copy _ => true | _ => false end.

(** Number of calls of a kind in a log. *)
Definition count (kind : Call -> bool) (l : list Call) : nat :=
  List.length (List.filter kind l).

(** Exceptions that can leave a method. *)
Inductive Exn : Type :=
| ConanException (failed : Call)  (* the tool exited with an error *)
| TypeError.                      (* ill-formed [%] formatting *)

Inductive Result (A : Type) : Type :=
| Return (a : A)
| Raise (e : Exn).
Arguments Return {A} a.
Arguments Raise {A} e.

(** [self.info]: what the package identity is computed from. *)
Record ConanInfo : Type := {
  info_settings : list (string * string);
  info_options : list (string * string);
  info_requires : list string
}.

(** The attributes a recipe class declares. *)
Record Metadata : Type := {
  name : string;
  version : string;
  license : string;
  author : string;
  url : string;
  description : string;
  topics : list string;
  settings : list string;
  generators : string;
  exports_sources : list string;
  no_copy_source : bool
}.

(** A recipe object: the declared attributes and what Conan keeps on the
    instance. *)
Record ConanFile : Type := {
  metadata : Metadata;
  should_test : bool;
  info : ConanInfo;
  requires : list string;        (* filled by self.requires(...) *)
  test_requires : list string    (* filled by self.test_requires(...) *)
}.

(** The host: [cpus] is what [tools.cpu_count()] returns, [ignore_case] the
    copier's case mode (an argument the recipe leaves at its default),
    [fails past c] tells whether tool call [c] raises after the calls
    [past], and [log] lists the tool calls made so far, oldest first. *)
Record World : Type := {
  cpus : Z;
  ignore_case : bool;
  fails : list Call -> Call -> bool;
  log : list Call
}.

Record Machine : Type := {
  self : ConanFile;
  host : World
}.

Definition M (A : Type) : Type := Machine -> Result A * Machine.

Definition ret {A} (a : A) : M A := fun m => (Return a, m).

Definition bind {A B} (c : M A) (k : A -> M B) : M B :=
  fun m =>
    match c m with
    | (Return a, m') => k a m'
    | (Raise e, m') => (Raise e, m')
    end.

Definition raise {A} (e : Exn) : M A := fun m => (Raise e, m).

(** [None] of a Python primitive becomes the exception [e]. *)
Definition or_raise {A} (e : Exn) (o : option A) : M A :=
  match o with
  | Some a => ret a
  | None => raise e
  end.

Definition getattr {A} (field : ConanFile -> A) : M A :=
  fun m => (Return (field (self m)), m).

Definition update_self (f : ConanFile -> ConanFile) : M unit :=
  fun m => (Return tt, {| self := f (self m); host := host m |}).

Definition logged (c : Call) (w : World) : World :=
  {| cpus := cpus w;
     ignore_case := ignore_case w;
     fails := fails w;
     log := log w ++ [c] |}.

(** Calling an external tool: the call is logged, then it returns or
    raises as the host decides. *)
Definition invoke (c : Call) : M unit :=
  fun m =>
    let m' := {| self := self m; host := logged c (host m) |} in
    if fails (host m) (log (host m)) c
    then (Raise (ConanException c), m')
    else (Return tt, m').

(** The helper object built by [CMake(self)]. *)
Inductive CMakeHelper : Type := CMakeOf (conanfile : ConanFile).

Definition CMake : M CMakeHelper :=
  fun m => (Return (CMakeOf (self m)), m).

Definition configure (cmake : CMakeHelper) : M unit := invoke Configure.
Definition build (cmake : CMakeHelper) : M unit := invoke Build.

Definition run (command : string) : M unit := invoke (Run command).
Definition copy (pattern : string) : M unit := invoke (Copy pattern).

(** The files a [self.copy(pattern)] call takes out of the source tree
    [files] (paths relative to the source folder). *)
Definition copied (w : World) (pattern : string) (files : list string)
  : list string :=
  Fnmatch.filter (ignore_case w) files pattern.

Definition with_info (i : ConanInfo) (c : ConanFile) : ConanFile :=
  {| metadata := metadata c;
     should_test := should_test c;
     info := i;
     requires := requires c;
     test_requires := test_requires c |}.

(** Modelled from the spec: [ConanInfo.header_only] belongs to the Conan
    library.  The spec has the header-only mark make the package identity
    ignore compiler and settings variation; the library does it by
    emptying what the identity is computed from. *)
Definition header_only_info (i : ConanInfo) : ConanInfo :=
  {| info_settings := []; info_options := []; info_requires := [] |}.

Definition header_only : M unit :=
  update_self (fun c => with_info (header_only_info (info c)) c).

Definition add_requires (ref : string) : M unit :=
  update_self (fun c =>
    {| metadata := metadata c;
       should_test := should_test c;
       info := info c;
       requires := requires c ++ [ref];
       test_requires := test_requires c |}).

Definition add_test_requires (ref : string) : M unit :=
  update_self (fun c =>
    {| metadata := metadata c;
       should_test := should_test c;
       info := info c;
       requires := requires c;
       test_requires := test_requires c ++ [ref] |}).

(** The tool calls made between machine [m] and the later machine [m']. *)
Definition emitted (m m' : Machine) : list Call :=
  skipn (List.length (log (host m))) (log (host m')).

End Conans.

Module tools.

(** [tools.cpu_count()]. *)
Definition cpu_count : Conans.M Z :=
  fun m => (Conans.Return (Conans.cpus (Conans.host m)), m).

End tools.

Declare Scope conan_scope.
Delimit Scope conan_scope with conan.
Notation "x <- c ;; k" := (Conans.bind c (fun x => k))
  (at level 61, c at next level, right associativity) : conan_scope.
Notation "c ;;; k" := (Conans.bind c (fun _ => k))
  (at level 61, right associativity) : conan_scope.

(** ** The recipe: [class libarmcortex_conan(ConanFile)] *)

Module libarmcortex_conan.

Import Conans.
Local Open Scope conan_scope.

Definition declared : Metadata := {|
  name := "libarmcortex";
  version := "0.0.1";
  license := "Apache License Version 2.0";
  author := "Khalil Estell";
  url := "https://github.com/libembeddedhal/libarmcortex";
  description := "A collection of interfaces and abstractions for embedded peripherals and devices using modern C++";
  topics := ["peripherals"; "hardware"];
  settings := ["os"; "compiler"; "arch"; "build_type"];
  generators := "cmake_find_package";
  exports_sources := ["include/*"; "CMakeLists.txt"; "tests/*"];
  no_copy_source := true
|}.

Definition build : M unit :=
  cmake <- CMake ;;
  Conans.configure cmake ;;;
  Conans.build cmake ;;;
  t <- getattr should_test ;;
  if Py.truthy t then
    n <- tools.cpu_count ;;
    command <- or_raise TypeError
                 (Py.percent "ctest -j %s --output-on-failure" (Py.str n)) ;;
    run command
  else ret tt.

Definition package : M unit :=
  copy "*.hpp".

Definition package_id : M unit :=
  header_only.

Definition requirements : M unit :=
  add_requires "libembeddedhal/0.0.1@" ;;;
  add_requires "libxbitset/0.0.1@".

Definition build_requirements : M unit :=
  add_test_requires "boost-ext-ut/1.1.8@".

End libarmcortex_conan.

(** ** How Conan drives the recipe *)

Module Driver.

Import Conans.

(** A recipe object as Conan creates it before calling any method. *)
Definition instantiate (declared : Metadata) (should_test : bool) : ConanFile :=
  {| metadata := declared;
     should_test := should_test;
     info := {| info_settings := []; info_options := []; info_requires := [] |};
     requires := [];
     test_requires := [] |}.

Definition start (should_test : bool) (w : World) : Machine :=
  {| self := instantiate libarmcortex_conan.declared should_test; host := w |}.

(** Machine [m] after the tool calls [calls] have been logged. *)
Definition extend (m : Machine) (calls : list Call) : Machine :=
  {| self := self m;
     host := {| cpus := cpus (host m);
                ignore_case := ignore_case (host m);
                fails := fails (host m);
                log := log (host m) ++ calls |} |}.

(** The methods Conan calls on a recipe. *)
Inductive Method : Type :=
| build | package | package_id | requirements | build_requirements.

Definition body (f : Method) : M unit :=
  match f with
  | build => libarmcortex_conan.build
  | package => libarmcortex_conan.package
  | package_id => libarmcortex_conan.package_id
  | requirements => libarmcortex_conan.requirements
  | build_requirements => libarmcortex_conan.build_requirements
  end.

(** Conan calls the methods one after the other on the same object; what a
    method leaves behind stays, whether it returned or raised. *)
Fixpoint call_all (fs : list Method) (m : Machine) : Machine :=
  match fs with
  | [] => m
  | f :: rest => call_all rest (snd (body f m))
  end.

(** The first of the tool calls [calls], made after the calls [past], that
    the host lets raise, with the calls made before it. *)
Fixpoint first_failure (failing : list Call -> Call -> bool)
    (past calls : list Call) : option (list Call * Call) :=
  match calls with
  | [] => None
  | c :: rest =>
      if failing past c then Some ([], c)
      else match first_failure failing (past ++ [c]) rest with
           | Some (before, d) => Some (c :: before, d)
           | None => None
           end
  end.

(** The settings Conan puts in [self.info]: the values the profile gives
    to the settings the recipe declares. *)
Definition create_info (declared_settings : list string)
    (profile options : list (string * string)) (reqs : list string)
  : ConanInfo :=
  {| info_settings :=
       List.filter (fun kv => existsb (String.eqb (fst kv)) declared_settings)
                   profile;
     info_options := options;
     info_requires := reqs |}.

(** Modelled from the spec: the identity computation belongs to the package
    manager.  It fills [self.info] from the profile, lets the recipe's
    [package_id] method edit it, and digests what is left into the
    identity (cache key).  [digest] is the manager's hash. *)
Definition compute_package_id (digest : ConanInfo -> string)
    (package_id_method : M unit) (m : Machine)
    (profile options : list (string * string)) : Result string :=
  let i := create_info (settings (metadata (self m))) profile options
                       (requires (self m)) in
  match package_id_method {| self := with_info i (self m); host := host m |} with
  | (Return _, m') => Return (digest (info (self m')))
  | (Raise e, _) => Raise e
  end.

(** A digest that keeps everything: the settings, options and requirements
    written out one per line. *)
Definition dumps (i : ConanInfo) : string :=
  String.concat (String (ascii_of_nat 10) EmptyString)
    (List.map (fun kv => (fst kv ++ "=" ++ snd kv)%string) (info_settings i)
     ++ List.map (fun kv => (fst kv ++ "=" ++ snd kv)%string) (info_options i)
     ++ info_requires i).

End Driver.

(** ** Conan package references: [name/version@[user/channel]] *)

Module Reference.

Definition between (lo hi : nat) (c : ascii) : bool :=
  let n := nat_of_ascii c in ((lo <=? n) && (n <=? hi))%nat.

Definition alnum_ (c : ascii) : bool :=
  between 97 122 c || between 65 90 c || between 48 57 c || Ascii.eqb c "_".

Definition name_char (c : ascii) : bool :=
  alnum_ c || Ascii.eqb c "+" || Ascii.eqb c "." || Ascii.eqb c "-".

Fixpoint all_chars (p : ascii -> bool) (s : string) : bool :=
  match s with
  | EmptyString => true
  | String c s' => p c && all_chars p s'
  end.

(** A name, version, user or channel: 2 to 51 characters, the first a
    letter, a digit or [_], the others also [+], [.] or [-]. *)
Definition valid_field (s : string) : bool :=
  match s with
  | EmptyString => false
  | String c s' =>
      alnum_ c && all_chars name_char s'
      && (1 <=? String.length s')%nat && (String.length s' <=? 50)%nat
  end.

(** [s] cut at the first [sep], when there is one. *)
Fixpoint cut (sep : ascii) (s : string) : option (string * string) :=
  match s with
  | EmptyString => None
  | String c s' =>
      if Ascii.eqb c sep then Some (EmptyString, s')
      else match cut sep s' with
           | Some (a, b) => Some (String c a, b)
           | None => None
           end
  end.

Definition valid_pair (s : string) : bool :=
  match cut "/" s with
  | Some (a, b) => valid_field a && valid_field b
  | None => false
  end.

Definition well_formed (ref : string) : bool :=
  match cut "@" ref with
  | None => valid_pair ref
  | Some (name_version, user_channel) =>
      valid_pair name_version
      && match user_channel with
         | EmptyString => true
         | _ => valid_pair user_channel
         end
  end.

End Reference.

(** ** Header files, by name *)

Module Header.

(** [s] ends with [suffix]. *)
Fixpoint has_suffix (suffix s : string) : bool :=
  String.eqb suffix s ||
  match s with
  | EmptyString => false
  | String _ s' => has_suffix suffix s'
  end.

(** The extensions C and C++ headers go by. *)
Definition extensions : list string := [".h"; ".hh"; ".hpp"; ".hxx"; ".h++"].

(** A header file is a file whose name carries a header extension, in
    either letter case. *)
Definition is_header (file : string) : bool :=
  existsb (fun ext => has_suffix ext (Fnmatch.lower file)) extensions.

End Header.

(** ** The [ctest] command line *)

Module Ctest.

(** The job count a command line asks for with [-j]. *)
Definition jobs (argv : list string) : option Z :=
  match Shell.option_value "-j" argv with
  | Some v => Py.int v
  | None => None
  end.

Definition output_on_failure (argv : list string) : bool :=
  Shell.has_flag "--output-on-failure" argv.

Definition is_ctest (argv : list string) : bool :=
  match argv with
  | prog :: _ => String.eqb prog "ctest"
  | [] => false
  end.

(** The tool call starts the test runner. *)
Definition invoked_by (c : Conans.Call) : bool :=
  match c with
  | Conans.Run command => is_ctest (Shell.words command)
  | _ => false
  end.

End Ctest.

(** ** Sample hosts and source trees *)

Module Sample.

Import Conans.

Definition host (cpu : Z) (failing : list Call -> Call -> bool) : World :=
  {| cpus := cpu; ignore_case := true; fails := failing; log := [] |}.

Definition all_pass : list Call -> Call -> bool := fun _ _ => false.

Definition configure_fails : list Call -> Call -> bool :=
  fun _ c => is_configure c.

Definition tests_fail : list Call -> Call -> bool :=
  fun _ c => is_run c.

(** Tests are wanted and every tool succeeds, on eight CPUs. *)
Definition testing : Machine := Driver.start true (host 8 all_pass).

(** Tests are not wanted and every tool succeeds. *)
Definition quiet : Machine := Driver.start false (host 8 all_pass).

(** Tests are wanted, but the configure step raises. *)
Definition broken_configure : Machine :=
  Driver.start true (host 8 configure_fails).

(** Tests are wanted, but the test run raises. *)
Definition red_tests : Machine := Driver.start true (host 8 tests_fail).

Definition tree : list string :=
  [ "CMakeLists.txt";
    "include/libarmcortex/dwt_counter.hpp";
    "include/libarmcortex/interrupt.hpp";
    "include/libarmcortex/startup.h";
    "tests/main.test.cpp" ].

Definition linux : list (string * string) :=
  [("os", "Linux"); ("compiler", "gcc"); ("arch", "x86_64");
   ("build_type", "Release")].

Definition windows : list (string * string) :=
  [("os", "Windows"); ("compiler", "Visual Studio"); ("arch", "armv7");
   ("build_type", "Debug")].

End Sample.

(** ** The recipe in Conan's flow *)

Module Flow.

Import Conans.

(** Conan sets [should_test] on the recipe object before it calls [build]. *)
Definition with_should_test (b : bool) (m : Machine) : Machine :=
  {| self := {| metadata := metadata (self m);
                should_test := b;
                info := info (self m);
                requires := requires (self m);
                test_requires := test_requires (self m) |};
     host := host m |}.


(** The files of [files] that [exports_sources] exports: those that one of
    the patterns matches, the copier doing the matching. *)
Definition exported (w : World) (patterns files : list string) : list string :=
  List.filter
    (fun file => existsb (fun pat => Fnmatch.matches (ignore_case w) pat file)
                         patterns)
    files.


End Flow.

(** * Properties *)

Import Conans.

(** ** Lists, strings and logs *)

Lemma skipn_app_exact {A} (l x : list A) :
  skipn (List.length l) (l ++ x) = x.
Proof.
  induction l as [|a l IH]; simpl; auto.
Qed.

Lemma append_assoc (a b c : string) :
  ((a ++ b) ++ c = a ++ (b ++ c))%string.
Proof.
  induction a as [|x a IH]; simpl; [reflexivity | now rewrite IH].
Qed.

Lemma append_empty_r (a : string) : (a ++ "")%string = a.
Proof.
  induction a as [|x a IH]; simpl; [reflexivity | now rewrite IH].
Qed.

Lemma emitted_extend (m : Machine) (calls : list Call) :
  emitted m (Driver.extend m calls) = calls.
Proof.
  unfold emitted, Driver.extend; simpl. apply skipn_app_exact.
Qed.

(** ** The command line built by [build] *)

Lemma percent_ctest (jobs : string) :
  Py.percent "ctest -j %s --output-on-failure" jobs
  = Some ("ctest -j " ++ jobs ++ " --output-on-failure")%string.
Proof. reflexivity. Qed.

(** ** What a run of [build] and [package] looks like *)

Lemma build_cases (m : Machine) :
  let w := host m in
  let l := log w in
  let cmd := ("ctest -j " ++ Py.str (cpus w) ++ " --output-on-failure")%string in
  libarmcortex_conan.build m =
  if fails w l Configure then
    (Raise (ConanException Configure), Driver.extend m [Configure])
  else if fails w (l ++ [Configure]) Build then
    (Raise (ConanException Build), Driver.extend m [Configure; Build])
  else if should_test (self m) then
    if fails w (l ++ [Configure; Build]) (Run cmd) then
      (Raise (ConanException (Run cmd)),
       Driver.extend m [Configure; Build; Run cmd])
    else (Return tt, Driver.extend m [Configure; Build; Run cmd])
  else (Return tt, Driver.extend m [Configure; Build]).
Proof.
  intros w l cmd. subst w l cmd.
  unfold libarmcortex_conan.build, bind, CMake, configure, Conans.build,
    run, invoke, logged, getattr, tools.cpu_count, or_raise, ret, Py.truthy,
    Driver.extend.
  simpl.
  destruct (fails (host m) (log (host m)) Configure); simpl; [reflexivity|].
  destruct (fails (host m) (log (host m) ++ [Configure]) Build); simpl.
  - now rewrite <- app_assoc.
  - destruct (should_test (self m)); simpl.
    + rewrite <- !app_assoc; simpl.
      destruct (fails (host m) (log (host m) ++ [Configure; Build]) _);
        reflexivity.
    + now rewrite <- app_assoc.
Qed.

Lemma package_cases (m : Machine) :
  libarmcortex_conan.package m =
  if fails (host m) (log (host m)) (Copy "*.hpp") then
    (Raise (ConanException (Copy "*.hpp")), Driver.extend m [Copy "*.hpp"])
  else (Return tt, Driver.extend m [Copy "*.hpp"]).
Proof.
  unfold libarmcortex_conan.package, copy, invoke, logged, Driver.extend; simpl.
  destruct (fails (host m) (log (host m)) (Copy "*.hpp")); reflexivity.
Qed.

Example build_with_tests :
  fst (libarmcortex_conan.build Sample.testing) = Return tt
  /\ log (host (snd (libarmcortex_conan.build Sample.testing)))
     = [Configure; Build; Run "ctest -j 8 --output-on-failure"].
Proof. split; reflexivity. Qed.

Example build_without_tests :
  fst (libarmcortex_conan.build Sample.quiet) = Return tt
  /\ log (host (snd (libarmcortex_conan.build Sample.quiet)))
     = [Configure; Build].
Proof. split; reflexivity. Qed.

Example build_with_broken_configure :
  fst (libarmcortex_conan.build Sample.broken_configure)
  = Raise (ConanException Configure)
  /\ log (host (snd (libarmcortex_conan.build Sample.broken_configure)))
     = [Configure].
Proof. split; reflexivity. Qed.

Example build_with_red_tests :
  fst (libarmcortex_conan.build Sample.red_tests)
  = Raise (ConanException (Run "ctest -j 8 --output-on-failure"))
  /\ log (host (snd (libarmcortex_conan.build Sample.red_tests)))
     = [Configure; Build; Run "ctest -j 8 --output-on-failure"].
Proof. split; reflexivity. Qed.

(** The calls [build] makes, whatever the host does. *)
Lemma build_emitted (m : Machine) :
  let w := host m in
  let l := log w in
  let cmd := ("ctest -j " ++ Py.str (cpus w) ++ " --output-on-failure")%string in
  emitted m (snd (libarmcortex_conan.build m)) =
  if fails w l Configure then [Configure]
  else if fails w (l ++ [Configure]) Build then [Configure; Build]
  else if should_test (self m) then [Configure; Build; Run cmd]
  else [Configure; Build].
Proof.
  intros w l cmd. rewrite build_cases. fold w l cmd.
  destruct (fails w l Configure); [apply emitted_extend|].
  destruct (fails w (l ++ [Configure]) Build); [apply emitted_extend|].
  destruct (should_test (self m)); [|apply emitted_extend].
  destruct (fails w (l ++ [Configure; Build]) (Run cmd)); apply emitted_extend.
Qed.

Lemma package_emitted (m : Machine) :
  emitted m (snd (libarmcortex_conan.package m)) = [Copy "*.hpp"].
Proof.
  rewrite package_cases.
  destruct (fails (host m) (log (host m)) (Copy "*.hpp")); apply emitted_extend.
Qed.

(** ** Words of a command line *)

Lemma split_word (w : string) : forall cur rest,
  Shell.blank_free w = true ->
  (cur ++ w)%string <> EmptyString ->
  Shell.split_from cur (w ++ String " " rest)
  = (cur ++ w)%string :: Shell.split_from EmptyString rest.
Proof.
  induction w as [|c w IH]; intros cur rest Hfree Hne; simpl in *.
  - rewrite append_empty_r in *.
    destruct cur; [congruence | reflexivity].
  - apply andb_prop in Hfree. destruct Hfree as [Hc Hw].
    apply negb_true_iff in Hc. rewrite Hc.
    rewrite IH; auto.
    + now rewrite append_assoc.
    + now rewrite append_assoc.
Qed.

Lemma digits_blank_free (d : Decimal.uint) :
  Shell.blank_free (NilEmpty.string_of_uint d) = true.
Proof.
  induction d; simpl; auto.
Qed.

Lemma str_blank_free (n : Z) : Shell.blank_free (Py.str n) = true.
Proof.
  unfold Py.str, NilZero.string_of_int, NilZero.string_of_uint.
  destruct (Z.to_int n) as [d|d]; destruct d; simpl;
    auto using digits_blank_free.
Qed.

Lemma str_nonempty (n : Z) : Py.str n <> EmptyString.
Proof.
  unfold Py.str, NilZero.string_of_int, NilZero.string_of_uint.
  destruct (Z.to_int n) as [d|d]; destruct d; simpl; discriminate.
Qed.

(** [int(str(n)) == n]. *)
Lemma int_str (n : Z) : Py.int (Py.str n) = Some n.
Proof.
  unfold Py.int, Py.str.
  rewrite NilZero.isi.
  - simpl. now rewrite DecimalZ.of_to.
  - destruct n; simpl; try discriminate.
    intros [= H]. now apply Unsigned.to_uint_nonnil in H.
  - destruct n; simpl; try discriminate.
    intros [= H]. now apply Unsigned.to_uint_nonnil in H.
Qed.

Lemma words_ctest (jobs : string) :
  Shell.blank_free jobs = true ->
  jobs <> EmptyString ->
  Shell.words ("ctest -j " ++ jobs ++ " --output-on-failure")
  = ["ctest"; "-j"; jobs; "--output-on-failure"].
Proof.
  intros Hfree Hne. unfold Shell.words. simpl.
  rewrite split_word; auto.
Qed.

Lemma ctest_invoked_by_run (n : Z) :
  Ctest.invoked_by
    (Run ("ctest -j " ++ Py.str n ++ " --output-on-failure")) = true.
Proof.
  unfold Ctest.invoked_by.
  rewrite words_ctest; auto using str_blank_free, str_nonempty.
Qed.

(** ** Order and number of the build steps *)

(** C1, as the claim has it, fails: when the configure step raises, the
    exception leaves [build] at once and the build step is not invoked at
    all, so it is not invoked exactly once. *)
Lemma build_step_skipped_when_configure_raises :
  ~ (count is_configure
       (emitted Sample.broken_configure
          (snd (libarmcortex_conan.build Sample.broken_configure))) = 1
     /\ count is_build
          (emitted Sample.broken_configure
             (snd (libarmcortex_conan.build Sample.broken_configure))) = 1
     /\ exists pre post,
          emitted Sample.broken_configure
            (snd (libarmcortex_conan.build Sample.broken_configure))
          = pre ++ Build :: post
          /\ In Configure pre).
Proof.
  intros [_ [Hbuild _]]. vm_compute in Hbuild. discriminate.
Qed.

(** C1, amended: in every execution of [build] the configure step is the
    first tool call and is invoked exactly once; the build step is invoked
    only after it, exactly once when the configure step returns and not at
    all when the configure step raises. *)
Theorem build_configures_first_then_builds : forall m : Machine,
  exists rest,
    emitted m (snd (libarmcortex_conan.build m)) = Configure :: rest
    /\ count is_configure (Configure :: rest) = 1
    /\ count is_build rest
       = if fails (host m) (log (host m)) Configure then 0 else 1.
Proof.
  intros m. rewrite build_emitted.
  destruct (fails (host m) (log (host m)) Configure).
  - exists []. repeat split.
  - destruct (fails (host m) (log (host m) ++ [Configure]) Build).
    + exists [Build]. repeat split.
    + destruct (should_test (self m)); eexists; repeat split.
Qed.

(** ** When the test runner is started *)

(** C2, as the claim has it, fails: with [should_test] set, a configure step
    that raises ends [build] before the test runner is reached. *)
Lemma should_test_without_ctest_when_configure_raises :
  ~ ((0 < count Ctest.invoked_by
            (emitted Sample.broken_configure
               (snd (libarmcortex_conan.build Sample.broken_configure)))
      <-> should_test (self Sample.broken_configure) = true)
     /\ (should_test (self Sample.broken_configure) = false ->
         count Ctest.invoked_by
           (emitted Sample.broken_configure
              (snd (libarmcortex_conan.build Sample.broken_configure))) = 0)).
Proof.
  intros [[_ Hif] _].
  assert (H : should_test (self Sample.broken_configure) = true) by reflexivity.
  apply Hif in H. vm_compute in H. lia.
Qed.

(** C2, amended: [build] starts the test runner only when [should_test]
    holds, and never when it does not; it starts it exactly once when
    [should_test] holds and both the configure and the build step return,
    and not at all otherwise.  Every [self.run] of [build] is that start. *)
Theorem ctest_started_only_when_should_test : forall m : Machine,
  count Ctest.invoked_by (emitted m (snd (libarmcortex_conan.build m)))
  = (if should_test (self m)
        && negb (fails (host m) (log (host m)) Configure)
        && negb (fails (host m) (log (host m) ++ [Configure]) Build)
     then 1 else 0)
  /\ count Ctest.invoked_by (emitted m (snd (libarmcortex_conan.build m)))
     <= (if should_test (self m) then 1 else 0)
  /\ count is_run (emitted m (snd (libarmcortex_conan.build m)))
     = count Ctest.invoked_by (emitted m (snd (libarmcortex_conan.build m))).
Proof.
  intros m. rewrite build_emitted. unfold count.
  destruct (fails (host m) (log (host m)) Configure);
    [destruct (should_test (self m)); simpl; repeat split; lia|].
  destruct (fails (host m) (log (host m) ++ [Configure]) Build);
    [destruct (should_test (self m)); simpl; repeat split; lia|].
  destruct (should_test (self m)); [|simpl; repeat split; lia].
  cbn [List.filter is_run Ctest.invoked_by].
  pose proof (ctest_invoked_by_run (cpus (host m))) as Hc.
  unfold Ctest.invoked_by in Hc. rewrite Hc.
  simpl. repeat split; lia.
Qed.

(** ** The test runner's command line *)

(** C3: every command [build] hands to [self.run] is a [ctest] command line
    whose [-j] option carries the number [tools.cpu_count()] returned, in
    decimal, and which has the [--output-on-failure] flag. *)
Theorem ctest_command_line : forall (m : Machine) (command : string),
  In (Run command) (emitted m (snd (libarmcortex_conan.build m))) ->
  Shell.words command
  = ["ctest"; "-j"; Py.str (cpus (host m)); "--output-on-failure"]
  /\ Ctest.is_ctest (Shell.words command) = true
  /\ Ctest.jobs (Shell.words command) = Some (cpus (host m))
  /\ Ctest.output_on_failure (Shell.words command) = true.
Proof.
  intros m command Hin.
  assert (Hcmd : command
    = ("ctest -j " ++ Py.str (cpus (host m)) ++ " --output-on-failure")%string).
  { rewrite build_emitted in Hin.
    destruct (fails (host m) (log (host m)) Configure);
      [simpl in Hin; intuition discriminate|].
    destruct (fails (host m) (log (host m) ++ [Configure]) Build);
      [simpl in Hin; intuition discriminate|].
    destruct (should_test (self m)); simpl in Hin;
      [|intuition discriminate].
    destruct Hin as [H|[H|[H|[]]]]; try discriminate.
    now injection H as <-. }
  subst command.
  rewrite words_ctest by auto using str_blank_free, str_nonempty.
  repeat split.
  - unfold Ctest.jobs. simpl. apply int_str.
  - unfold Ctest.output_on_failure, Shell.has_flag.
    apply existsb_exists. exists "--output-on-failure".
    split; [simpl; auto | apply String.eqb_refl].
Qed.

Lemma ctest_command_line_witness :
  In (Run "ctest -j 8 --output-on-failure")
     (emitted Sample.testing (snd (libarmcortex_conan.build Sample.testing)))
  /\ Ctest.jobs (Shell.words "ctest -j 8 --output-on-failure") = Some 8%Z
  /\ Ctest.output_on_failure (Shell.words "ctest -j 8 --output-on-failure")
     = true.
Proof.
  assert (H : In (Run "ctest -j 8 --output-on-failure")
                (emitted Sample.testing
                   (snd (libarmcortex_conan.build Sample.testing)))).
  { vm_compute. right. right. left. reflexivity. }
  split; [exact H|].
  destruct (ctest_command_line Sample.testing _ H) as [_ [_ [Hj Ho]]].
  split; [exact Hj | exact Ho].
Defined.

(** ** Globs and suffixes *)

Lemma glob_star_unfold (p s : string) :
  Fnmatch.glob (String "*" p) s
  = Fnmatch.glob p s
    || match s with
       | EmptyString => false
       | String _ s' => Fnmatch.glob (String "*" p) s'
       end.
Proof. destruct s; reflexivity. Qed.

(** [*p] matches [s] when [p] matches an end of [s]. *)
Lemma glob_star (p s : string) :
  Fnmatch.glob (String "*" p) s = true
  <-> exists pre suf, s = (pre ++ suf)%string /\ Fnmatch.glob p suf = true.
Proof.
  induction s as [|c s IH]; rewrite glob_star_unfold.
  - rewrite orb_false_r. split.
    + intros H. now exists EmptyString, EmptyString.
    + intros [pre [suf [Heq H]]].
      destruct pre; [simpl in Heq; now subst suf | discriminate].
  - rewrite orb_true_iff, IH. split.
    + intros [H | [pre [suf [Heq H]]]].
      * now exists EmptyString, (String c s).
      * exists (String c pre), suf. simpl. now rewrite Heq.
    + intros [pre [suf [Heq H]]]. destruct pre as [|d pre]; simpl in Heq.
      * left. now subst suf.
      * right. injection Heq as _ Heq. now exists pre, suf.
Qed.

Lemma glob_dot_hpp (s : string) :
  Fnmatch.glob ".hpp" s = true <-> s = ".hpp".
Proof.
  split.
  - intros H.
    destruct s as [|a [|b [|c [|d [|e s]]]]]; cbn -[Ascii.eqb] in H;
      try discriminate;
      repeat (apply andb_prop in H; destruct H as [?E H]);
      try discriminate.
    apply Ascii.eqb_eq in E, E0, E1, E2. now subst.
  - intros ->. reflexivity.
Qed.

Lemma glob_any_hpp (s : string) :
  Fnmatch.glob "*.hpp" s = true <-> exists stem, s = (stem ++ ".hpp")%string.
Proof.
  rewrite glob_star. split.
  - intros [pre [suf [Heq H]]]. apply glob_dot_hpp in H. subst.
    now exists pre.
  - intros [stem ->]. exists stem, ".hpp". now split.
Qed.

Lemma normcase_any_hpp (ic : bool) : Fnmatch.normcase ic "*.hpp" = "*.hpp".
Proof. destruct ic; reflexivity. Qed.

Lemma matches_any_hpp (ic : bool) (file : string) :
  Fnmatch.matches ic "*.hpp" file = true
  <-> exists stem, Fnmatch.normcase ic file = (stem ++ ".hpp")%string.
Proof.
  unfold Fnmatch.matches, Fnmatch.fnmatchcase.
  rewrite normcase_any_hpp. apply glob_any_hpp.
Qed.

Lemma lower_app (a b : string) :
  Fnmatch.lower (a ++ b) = (Fnmatch.lower a ++ Fnmatch.lower b)%string.
Proof.
  induction a as [|c a IH]; simpl; [reflexivity | now rewrite IH].
Qed.

Lemma has_suffix_iff (suffix s : string) :
  Header.has_suffix suffix s = true
  <-> exists stem, s = (stem ++ suffix)%string.
Proof.
  induction s as [|c s IH]; simpl.
  - rewrite orb_false_r, String.eqb_eq. split.
    + intros ->. now exists EmptyString.
    + intros [stem H]. destruct stem; [now simpl in H | discriminate].
  - rewrite orb_true_iff, String.eqb_eq, IH. split.
    + intros [-> | [stem ->]].
      * now exists EmptyString.
      * now exists (String c stem).
    + intros [stem H]. destruct stem as [|d stem]; simpl in H.
      * now left.
      * right. injection H as _ H. now exists stem.
Qed.

(** A name that ends in [.hpp], as the copier compares names, is the name of
    a header file. *)
Lemma hpp_is_header (ic : bool) (file stem : string) :
  Fnmatch.normcase ic file = (stem ++ ".hpp")%string ->
  Header.is_header file = true.
Proof.
  intros H. unfold Header.is_header, Header.extensions.
  apply existsb_exists. exists ".hpp". split; [simpl; auto|].
  apply has_suffix_iff. destruct ic; simpl in H.
  - now exists stem.
  - exists (Fnmatch.lower stem). rewrite H. apply lower_app.
Qed.


Lemma copied_any_hpp (w : World) (files : list string) (file : string) :
  In file (copied w "*.hpp" files)
  <-> In file files
      /\ exists stem,
           Fnmatch.normcase (ignore_case w) file = (stem ++ ".hpp")%string.
Proof.
  unfold copied, Fnmatch.filter.
  now rewrite filter_In, matches_any_hpp.
Qed.

(** ** What [package] copies *)

Example package_on_sample_tree :
  copied (host Sample.testing) "*.hpp" Sample.tree
  = ["include/libarmcortex/dwt_counter.hpp";
     "include/libarmcortex/interrupt.hpp"].
Proof. reflexivity. Qed.

(** C5: whatever pattern [package] hands to the copier, every file the
    copier takes for it out of a source tree is a header file of that tree,
    and no file that is not a header file is taken. *)
Theorem package_copies_only_headers :
  forall (m : Machine) (pattern : string) (files : list string),
  In (Copy pattern) (emitted m (snd (libarmcortex_conan.package m))) ->
  (forall file, In file (copied (host m) pattern files) ->
                In file files /\ Header.is_header file = true)
  /\ (forall file, Header.is_header file = false ->
                   ~ In file (copied (host m) pattern files)).
Proof.
  intros m pattern files Hin.
  rewrite package_emitted in Hin. destruct Hin as [H|[]].
  injection H as <-.
  assert (Hall : forall file, In file (copied (host m) "*.hpp" files) ->
                   In file files /\ Header.is_header file = true).
  { intros file Hc. apply copied_any_hpp in Hc.
    destruct Hc as [Hf [stem Hs]]. split; [exact Hf|].
    exact (hpp_is_header _ _ _ Hs). }
  split; [exact Hall|].
  intros file Hno Hc. apply Hall in Hc. destruct Hc as [_ Hc]. congruence.
Qed.

Lemma package_copies_only_headers_witness :
  In (Copy "*.hpp")
     (emitted Sample.testing (snd (libarmcortex_conan.package Sample.testing)))
  /\ Header.is_header "include/libarmcortex/interrupt.hpp" = true
  /\ ~ In "tests/main.test.cpp"
          (copied (host Sample.testing) "*.hpp" Sample.tree).
Proof.
  assert (H : In (Copy "*.hpp")
                (emitted Sample.testing
                   (snd (libarmcortex_conan.package Sample.testing)))).
  { vm_compute. left. reflexivity. }
  split; [exact H|].
  destruct (package_copies_only_headers Sample.testing "*.hpp" Sample.tree H)
    as [Hyes Hno].
  split.
  - apply (Hyes "include/libarmcortex/interrupt.hpp").
    vm_compute. right. left. reflexivity.
  - apply Hno. reflexivity.
Defined.


(** ** The package identity *)

(** Without the recipe's [package_id], the identity follows the settings. *)
Lemma default_identity_follows_settings :
  Driver.compute_package_id Driver.dumps (ret tt) Sample.testing
    Sample.linux []
  <> Driver.compute_package_id Driver.dumps (ret tt) Sample.testing
       Sample.windows [].
Proof. vm_compute. discriminate. Qed.

(** C4: [package_id] marks the package header-only, and nothing else; with
    it, whatever the digest, any two values of the settings give the same
    package identity. *)
Theorem package_id_ignores_settings :
  forall (digest : ConanInfo -> string) (m : Machine)
         (profile1 profile2 options : list (string * string)),
  libarmcortex_conan.package_id m
  = (Return tt,
     {| self := with_info (header_only_info (info (self m))) (self m);
        host := host m |})
  /\ Driver.compute_package_id digest libarmcortex_conan.package_id m
       profile1 options
     = Driver.compute_package_id digest libarmcortex_conan.package_id m
         profile2 options.
Proof.
  intros digest m profile1 profile2 options. split; reflexivity.
Qed.

(** ** Declared requirements *)

(** C6: [requirements] declares the two references [libembeddedhal/0.0.1@]
    and [libxbitset/0.0.1@], in this order, and nothing else;
    [build_requirements] declares the one test requirement
    [boost-ext-ut/1.1.8@] and nothing else; no other method declares a
    requirement. *)
Theorem declared_requirements :
  forall (f : Driver.Method) (m : Machine) (test : bool) (w : World),
  (requires
     (self (Driver.call_all [Driver.requirements; Driver.build_requirements]
              (Driver.start test w)))
   = ["libembeddedhal/0.0.1@"; "libxbitset/0.0.1@"]
   /\ test_requires
        (self (Driver.call_all [Driver.requirements; Driver.build_requirements]
                 (Driver.start test w)))
      = ["boost-ext-ut/1.1.8@"])
  /\ requires (self (snd (Driver.body f m)))
  = requires (self m)
    ++ match f with
       | Driver.requirements => ["libembeddedhal/0.0.1@"; "libxbitset/0.0.1@"]
       | _ => []
       end
  /\ test_requires (self (snd (Driver.body f m)))
     = test_requires (self m)
       ++ match f with
          | Driver.build_requirements => ["boost-ext-ut/1.1.8@"]
          | _ => []
          end.
Proof.
  intros f m test w. split; [split; reflexivity|].
  destruct f; simpl Driver.body.
  - rewrite build_cases.
    destruct (fails (host m) (log (host m)) Configure);
      [simpl; now rewrite !app_nil_r|].
    destruct (fails (host m) (log (host m) ++ [Configure]) Build);
      [simpl; now rewrite !app_nil_r|].
    destruct (should_test (self m)); [|simpl; now rewrite !app_nil_r].
    destruct (fails (host m) (log (host m) ++ [Configure; Build]) _);
      simpl; now rewrite !app_nil_r.
  - rewrite package_cases.
    destruct (fails (host m) (log (host m)) (Copy "*.hpp"));
      simpl; now rewrite !app_nil_r.
  - simpl. now rewrite !app_nil_r.
  - simpl. rewrite <- app_assoc. now rewrite app_nil_r.
  - simpl. now rewrite app_nil_r.
Qed.

(** ** Failures *)

Lemma emitted_same_log (m m' : Machine) :
  log (host m') = log (host m) -> emitted m m' = [].
Proof.
  intros H. unfold emitted. rewrite H. apply skipn_all.
Qed.

(** C7: in every method each kind of tool call is made at most once, so
    nothing is retried; the method raises exactly when the host lets one of
    its tool calls raise, the exception is that of the first such call, and
    that call is the last one made; when no call raises the method returns. *)
Theorem no_retry_and_failures_propagate :
  forall (f : Driver.Method) (m : Machine),
  (count is_configure (emitted m (snd (Driver.body f m))) <= 1
   /\ count is_build (emitted m (snd (Driver.body f m))) <= 1
   /\ count is_run (emitted m (snd (Driver.body f m))) <= 1
   /\ count is_copy (emitted m (snd (Driver.body f m))) <= 1)
  /\ match Driver.first_failure (fails (host m)) (log (host m))
             (emitted m (snd (Driver.body f m))) with
     | Some (before, c) =>
         emitted m (snd (Driver.body f m)) = before ++ [c]
         /\ fst (Driver.body f m) = Raise (ConanException c)
     | None => fst (Driver.body f m) = Return tt
     end.
Proof.
  intros f m. destruct f; simpl Driver.body.
  - rewrite build_emitted, build_cases. unfold count.
    generalize
      ("ctest -j " ++ Py.str (cpus (host m)) ++ " --output-on-failure")%string.
    intros cmd.
    destruct (fails (host m) (log (host m)) Configure) eqn:E1.
    { simpl. rewrite E1. repeat split; lia. }
    destruct (fails (host m) (log (host m) ++ [Configure]) Build) eqn:E2.
    { simpl. rewrite E1, E2. repeat split; lia. }
    destruct (should_test (self m)).
    2:{ simpl. rewrite E1, E2. repeat split; lia. }
    destruct (fails (host m) (log (host m) ++ [Configure; Build]) _) eqn:E3;
      simpl; rewrite E1, E2, <- app_assoc; simpl; rewrite E3;
      repeat split; lia.
  - rewrite package_emitted, package_cases. unfold count.
    destruct (fails (host m) (log (host m)) (Copy "*.hpp")) eqn:E;
      simpl; rewrite E; repeat split; lia.
  - rewrite emitted_same_log by reflexivity.
    unfold count. simpl. repeat split; lia.
  - rewrite emitted_same_log by reflexivity.
    unfold count. simpl. repeat split; lia.
  - rewrite emitted_same_log by reflexivity.
    unfold count. simpl. repeat split; lia.
Qed.

(** ** The declared attributes *)

Lemma body_keeps_metadata (f : Driver.Method) (m : Machine) :
  metadata (self (snd (Driver.body f m))) = metadata (self m).
Proof.
  destruct f; simpl Driver.body.
  - rewrite build_cases.
    destruct (fails (host m) (log (host m)) Configure); [reflexivity|].
    destruct (fails (host m) (log (host m) ++ [Configure]) Build);
      [reflexivity|].
    destruct (should_test (self m)); [|reflexivity].
    destruct (fails (host m) (log (host m) ++ [Configure; Build]) _);
      reflexivity.
  - rewrite package_cases.
    destruct (fails (host m) (log (host m)) (Copy "*.hpp")); reflexivity.
  - reflexivity.
  - reflexivity.
  - reflexivity.
Qed.

(** C8: whatever methods Conan calls on the recipe, in whatever order and
    whether they return or raise, the declared attributes keep their values:
    on a recipe object as Conan creates it, [name], [version], [license],
    [author], [url], [description], [topics], [settings], [generators],
    [exports_sources] and [no_copy_source] are the declared ones afterwards. *)
Theorem metadata_never_mutated :
  forall (fs : list Driver.Method) (m : Machine) (test : bool) (w : World),
  metadata (self (Driver.call_all fs m)) = metadata (self m)
  /\ metadata (self (Driver.call_all fs (Driver.start test w)))
     = libarmcortex_conan.declared
  /\ name (metadata (self (Driver.call_all fs (Driver.start test w))))
     = "libarmcortex"
  /\ version (metadata (self (Driver.call_all fs (Driver.start test w))))
     = "0.0.1"
  /\ settings (metadata (self (Driver.call_all fs (Driver.start test w))))
     = ["os"; "compiler"; "arch"; "build_type"]
  /\ no_copy_source
       (metadata (self (Driver.call_all fs (Driver.start test w))))
     = true.
Proof.
  assert (Hkeep : forall fs m,
            metadata (self (Driver.call_all fs m)) = metadata (self m)).
  { induction fs as [|f fs IH]; intros m; simpl; [reflexivity|].
    rewrite IH. apply body_keeps_metadata. }
  intros fs m test w. split; [apply Hkeep|].
  rewrite (Hkeep fs (Driver.start test w)). repeat split.
Qed.

(** ** Well-formed declarations *)

(** C9: the declared version is not empty, and each reference the recipe
    declares with [requirements] and [build_requirements] is a non-empty,
    well-formed package reference. *)
Theorem version_and_references_well_formed : forall (test : bool) (w : World),
  version libarmcortex_conan.declared <> EmptyString
  /\ 0 < String.length (version libarmcortex_conan.declared)
  /\ Forall (fun ref => ref <> EmptyString /\ Reference.well_formed ref = true)
       (requires
          (self (Driver.call_all
                   [Driver.requirements; Driver.build_requirements]
                   (Driver.start test w)))
        ++ test_requires
             (self (Driver.call_all
                      [Driver.requirements; Driver.build_requirements]
                      (Driver.start test w)))).
Proof.
  intros test w. split; [discriminate|]. split; [simpl; lia|].
  simpl. repeat constructor; discriminate.
Qed.

(** * Further properties of the recipe *)

(** ** [build]: the test run comes last *)

(** X1: [build] starts the test runner only as its third and last tool call,
    after a configure step and a build step that both returned. *)
Theorem ctest_runs_last_after_successful_build :
  forall (m : Machine) (command : string),
  In (Run command) (emitted m (snd (libarmcortex_conan.build m))) ->
  emitted m (snd (libarmcortex_conan.build m))
  = [Configure; Build; Run command]
  /\ should_test (self m) = true
  /\ fails (host m) (log (host m)) Configure = false
  /\ fails (host m) (log (host m) ++ [Configure]) Build = false.
Proof.
  intros m command Hin. rewrite build_emitted in *.
  destruct (fails (host m) (log (host m)) Configure);
    [simpl in Hin; intuition discriminate|].
  destruct (fails (host m) (log (host m) ++ [Configure]) Build);
    [simpl in Hin; intuition discriminate|].
  destruct (should_test (self m)); simpl in Hin; [|intuition discriminate].
  destruct Hin as [H|[H|[H|[]]]]; try discriminate.
  injection H as <-. repeat split.
Qed.

Lemma ctest_runs_last_after_successful_build_witness :
  In (Run "ctest -j 8 --output-on-failure")
     (emitted Sample.testing (snd (libarmcortex_conan.build Sample.testing)))
  /\ emitted Sample.testing (snd (libarmcortex_conan.build Sample.testing))
     = [Configure; Build; Run "ctest -j 8 --output-on-failure"].
Proof.
  assert (H : In (Run "ctest -j 8 --output-on-failure")
                (emitted Sample.testing
                   (snd (libarmcortex_conan.build Sample.testing)))).
  { vm_compute. right. right. left. reflexivity. }
  split; [exact H|].
  exact (proj1 (ctest_runs_last_after_successful_build Sample.testing _ H)).
Defined.

(** X2: [build] returns exactly when the configure step and the build step do
    not raise and, if [should_test] holds, the test run does not raise
    either: a [build] that returns with [should_test] set has run the tests
    and seen them pass. *)
Theorem build_returns_iff_every_step_passes : forall m : Machine,
  fst (libarmcortex_conan.build m) = Return tt
  <-> fails (host m) (log (host m)) Configure = false
      /\ fails (host m) (log (host m) ++ [Configure]) Build = false
      /\ (should_test (self m) = true ->
          fails (host m) (log (host m) ++ [Configure; Build])
            (Run ("ctest -j " ++ Py.str (cpus (host m))
                  ++ " --output-on-failure")) = false).
Proof.
  intros m. rewrite build_cases.
  destruct (fails (host m) (log (host m)) Configure); simpl.
  { split; [discriminate | intros [H _]; discriminate]. }
  destruct (fails (host m) (log (host m) ++ [Configure]) Build); simpl.
  { split; [discriminate | intros [_ [H _]]; discriminate]. }
  destruct (should_test (self m)); simpl.
  - destruct (fails (host m) (log (host m) ++ [Configure; Build]) _); simpl.
    + split; [discriminate|]. intros [_ [_ H]]. specialize (H eq_refl).
      discriminate.
    + split; auto.
  - split; auto. intros _. repeat split. discriminate.
Qed.

(** ** [build]: what [should_test] changes *)

(** X3: turning [should_test] on changes nothing to the configure and build
    steps: the calls made without testing are made in the same order with
    testing, followed by the test run when they succeed; and a [build] that
    raises without testing raises the same exception with testing. *)
Theorem should_test_only_appends_the_test_run : forall m : Machine,
  emitted (Flow.with_should_test true m)
    (snd (libarmcortex_conan.build (Flow.with_should_test true m)))
  = emitted (Flow.with_should_test false m)
      (snd (libarmcortex_conan.build (Flow.with_should_test false m)))
    ++ match fst (libarmcortex_conan.build (Flow.with_should_test false m)) with
       | Return _ =>
           [Run ("ctest -j " ++ Py.str (cpus (host m))
                 ++ " --output-on-failure")]
       | Raise _ => []
       end
  /\ (fst (libarmcortex_conan.build (Flow.with_should_test false m))
      = Return tt
      \/ fst (libarmcortex_conan.build (Flow.with_should_test true m))
         = fst (libarmcortex_conan.build (Flow.with_should_test false m))).
Proof.
  intros m. rewrite !build_emitted, !build_cases.
  cbn [Flow.with_should_test self host should_test].
  destruct (fails (host m) (log (host m)) Configure); simpl; [auto|].
  destruct (fails (host m) (log (host m) ++ [Configure]) Build); simpl; auto.
Qed.

(** ** [build] and [package]: what they leave alone *)

(** X4: neither [build] nor [package] changes the recipe object: settings of
    [self.info], declared requirements and [should_test] are what they were,
    whether the method returns or raises.  [build] never calls the copier. *)
Theorem build_and_package_leave_the_recipe_alone : forall m : Machine,
  self (snd (libarmcortex_conan.build m)) = self m
  /\ self (snd (libarmcortex_conan.package m)) = self m
  /\ count is_copy (emitted m (snd (libarmcortex_conan.build m))) = 0.
Proof.
  intros m. rewrite build_emitted, build_cases, package_cases.
  split; [|split].
  - destruct (fails (host m) (log (host m)) Configure); [reflexivity|].
    destruct (fails (host m) (log (host m) ++ [Configure]) Build);
      [reflexivity|].
    destruct (should_test (self m)); [|reflexivity].
    destruct (fails (host m) (log (host m) ++ [Configure; Build]) _);
      reflexivity.
  - destruct (fails (host m) (log (host m)) (Copy "*.hpp")); reflexivity.
  - destruct (fails (host m) (log (host m)) Configure); [reflexivity|].
    destruct (fails (host m) (log (host m) ++ [Configure]) Build);
      [reflexivity|].
    destruct (should_test (self m)); reflexivity.
Qed.

(** ** [build] then [package] *)




(** ** [exports_sources] and [package] *)











Example packaged_from_a_repository :
  copied (host Sample.testing) "*.hpp"
    (Flow.exported (host Sample.testing)
       (exports_sources libarmcortex_conan.declared)
       ("README.md" :: "tests/helpers.hpp" :: "demos/blink.hpp" :: Sample.tree))
  = ["tests/helpers.hpp";
     "include/libarmcortex/dwt_counter.hpp";
     "include/libarmcortex/interrupt.hpp"].
Proof. reflexivity. Qed.
